(** * ms-python-client: event body codec and zoom-id reconciliation

    A shallow embedding of [ms_python_client/utils/event_generator.py]
    (the full and the partial request-body builders) and of the zoom-id
    keyed operations of the CERN events component, with the properties
    the specification states about them. *)

From Stdlib Require Import Ascii String.
From stdpp Require Import gmap strings list fin_maps.

Set Warnings "-register-all,-clear-no-such-hyp".
Open Scope string_scope.

(** ** JSON values

    Request bodies and provider responses are Python [dict]s that are
    serialised to JSON.  Python compares dicts extensionally (key order
    is irrelevant to [==]), which is the equality of [gmap]. *)

Inductive json : Type :=
  | JNull
  | JBool (b : bool)
  | JNum (n : Z)
  | JStr (s : string)
  | JList (l : list json)
  | JObj (m : gmap string json).

(** ** Python exceptions raised by the modelled code *)

Inductive exn : Type :=
  | KeyError (k : string)
  | IndexError
  | TypeError
  | ValueError (s : string)
  | NotFoundError
  | TransportError (status : Z).

Inductive result (A : Type) : Type :=
  | Ok (a : A)
  | Raise (e : exn).
Arguments Ok {A} a.
Arguments Raise {A} e.

#[global] Instance result_ret : MRet result := λ A a, Ok a.
#[global] Instance result_bind : MBind result := λ A B k r,
  match r with
  | Ok a => k a
  | Raise e => Raise e
  end.
#[global] Instance result_fmap : FMap result := λ A B f r,
  match r with
  | Ok a => Ok (f a)
  | Raise e => Raise e
  end.

(** ** Python dict primitives used by the codec *)

(** [d[k]] on a dict of strings: [KeyError] when the key is absent. *)
Definition getitem (d : gmap string string) (k : string) : result string :=
  match d !! k with
  | Some v => Ok v
  | None => Raise (KeyError k)
  end.

(** [d.get(k, dflt)] *)
Definition get_default (d : gmap string string) (k dflt : string) : string :=
  match d !! k with
  | Some v => v
  | None => dflt
  end.

(** [k in d]: key membership, whatever the value. *)
Definition contains (d : gmap string string) (k : string) : bool :=
  match d !! k with
  | Some _ => true
  | None => false
  end.

(** [d.update(e)]: the keys of [e] overwrite those of [d]. *)
Definition update (d e : gmap string json) : gmap string json := e ∪ d.

(** ** The event body codec ([utils/event_generator.py])

    [EventParameters] and [PartialEventParameters] are [TypedDict]s, that
    is plain dicts from field names to strings at run time; a field of a
    [total=False] class may be absent.  [datetime.datetime] belongs to the
    Python library: the codec is parametrised by its parser
    [fromisoformat] ([None] standing for the [ValueError] it raises) and
    its printer [isoformat]. *)

Section Codec.

Variable datetime : Type.
Variable fromisoformat : string → option datetime.
Variable isoformat : datetime → string.

(** [datetime.datetime.fromisoformat(s).isoformat()] *)
Definition canonical_iso (s : string) : result string :=
  match fromisoformat s with
  | Some d => Ok (isoformat d)
  | None => Raise (ValueError s)
  end.

Definition create_event_body (event_parameters : gmap string string)
  : result (gmap string json) :=
  let timezone := get_default event_parameters "timezone" "Europe/Zurich" in
  indico_event_id ← getitem event_parameters "indico_event_id";
  subject ← getitem event_parameters "subject";
  content ← getitem event_parameters "zoom_url";
  start_time ← getitem event_parameters "start_time";
  start_dt ← canonical_iso start_time;
  end_time ← getitem event_parameters "end_time";
  end_dt ← canonical_iso end_time;
  displayName ← getitem event_parameters "zoom_url";
  uniqueId ← getitem event_parameters "zoom_url";
  onlineMeetingUrl ← getitem event_parameters "zoom_url";
  mret ({[
    "subject" := JStr ("[" ++ indico_event_id ++ "] " ++ subject);
    "body" := JObj {[
      "contentType" := JStr "text";
      "content" := JStr ("Zoom URL: " ++ content) ]};
    "start" := JObj {[
      "dateTime" := JStr start_dt;
      "timeZone" := JStr timezone ]};
    "end" := JObj {[
      "dateTime" := JStr end_dt;
      "timeZone" := JStr timezone ]};
    "location" := JObj {[
      "displayName" := JStr displayName;
      "locationType" := JStr "default";
      "uniqueIdType" := JStr "private";
      "uniqueId" := JStr uniqueId ]};
    "attendees" := JList [];
    "allowNewTimeProposals" := JBool false;
    "isOnlineMeeting" := JBool true;
    "onlineMeetingProvider" := JStr "unknown";
    "onlineMeetingUrl" := JStr onlineMeetingUrl
  ]} : gmap string json).

Definition create_partial_event_body (event_parameters : gmap string string)
  : result (gmap string json) :=
  let event : gmap string json := ∅ in
  let timezone := get_default event_parameters "timezone" "Europe/Zurich" in
  event ←
    (if contains event_parameters "zoom_url" then
       content ← getitem event_parameters "zoom_url";
       displayName ← getitem event_parameters "zoom_url";
       uniqueId ← getitem event_parameters "zoom_url";
       onlineMeetingUrl ← getitem event_parameters "zoom_url";
       mret (update event {[
         "body" := JObj {[
           "contentType" := JStr "text";
           "content" := JStr ("Zoom URL: " ++ content) ]};
         "location" := JObj {[
           "displayName" := JStr displayName;
           "locationType" := JStr "default";
           "uniqueIdType" := JStr "private";
           "uniqueId" := JStr uniqueId ]};
         "onlineMeetingUrl" := JStr onlineMeetingUrl ]})
     else mret event);
  event ←
    (if contains event_parameters "subject" then
       indico_event_id ← getitem event_parameters "indico_event_id";
       subject ← getitem event_parameters "subject";
       mret (update event {[
         "subject" := JStr ("[" ++ indico_event_id ++ "] " ++ subject) ]})
     else mret event);
  event ←
    (if contains event_parameters "start_time" then
       start_time ← getitem event_parameters "start_time";
       start_dt ← canonical_iso start_time;
       mret (update event {[
         "start" := JObj {[
           "dateTime" := JStr start_dt;
           "timeZone" := JStr timezone ]} ]})
     else mret event);
  event ←
    (if contains event_parameters "end_time" then
       end_time ← getitem event_parameters "end_time";
       end_dt ← canonical_iso end_time;
       mret (update event {[
         "end" := JObj {[
           "dateTime" := JStr end_dt;
           "timeZone" := JStr timezone ]} ]})
     else mret event);
  mret event.

End Codec.

(** ** The transport facade

    The HTTP transport is an external collaborator: a provider that answers
    each request with a status code and a JSON document, and may change its
    own state while doing so.  The client threads the provider state and
    the log of the requests it has issued; an exception leaves both as
    they were when it was raised. *)

Inductive verb : Type := GET | POST | PATCH | DELETE.

Record request : Type := Request {
  req_method : verb;
  req_path : string;
  req_query : gmap string string;
  req_json : option (gmap string json);
  req_headers : gmap string string
}.

Record response : Type := Response {
  status_code : Z;
  resp_json : json
}.

Section Transport.

Variable pstate : Type.
Variable provider : pstate → request → pstate * response.

Record world : Type := World {
  provider_state : pstate;
  sent : list request
}.

Definition client (A : Type) : Type := world → result A * world.

Definition cret {A} (a : A) : client A := λ w, (Ok a, w).

Definition cbind {A B} (c : client A) (k : A → client B) : client B :=
  λ w, match c w with
       | (Ok a, w') => k a w'
       | (Raise e, w') => (Raise e, w')
       end.

Definition lift {A} (r : result A) : client A := λ w, (r, w).

Definition raise {A} (e : exn) : client A := λ w, (Raise e, w).

(** A response outside 2xx is surfaced as a transport error. *)
Definition is_success (status : Z) : bool :=
  (200 <=? status)%Z && (status <? 300)%Z.

Definition send (r : request) : client json :=
  λ w, let '(s, resp) := provider (provider_state w) r in
       let w' := {| provider_state := s; sent := sent w ++ [r] |} in
       if is_success (status_code resp) then (Ok (resp_json resp), w')
       else (Raise (TransportError (status_code resp)), w').

End Transport.

Arguments World {pstate} _ _.
Arguments provider_state {pstate} _.
Arguments sent {pstate} _.
Arguments cret {pstate A} _ _.
Arguments cbind {pstate A B} _ _ _.
Arguments lift {pstate A} _ _.
Arguments raise {pstate A} _ _.

#[global] Instance client_ret {pstate} : MRet (client pstate) :=
  λ A, cret.
#[global] Instance client_bind {pstate} : MBind (client pstate) :=
  λ A B k c, cbind c k.

(** ** Python subscripting on decoded JSON *)

(** [j[k]] where [j] is expected to be a dict. *)
Definition json_getitem (j : json) (k : string) : result json :=
  match j with
  | JObj m =>
      match m !! k with
      | Some v => Ok v
      | None => Raise (KeyError k)
      end
  | _ => Raise TypeError
  end.

(** [j[0]] where [j] is expected to be a list. *)
Definition json_first (j : json) : result json :=
  match j with
  | JList (x :: _) => Ok x
  | JList [] => Raise IndexError
  | _ => Raise TypeError
  end.

(** [j == n] for an integer [n]: Python identifies [False]/[True] with
    0/1; a value of any other type differs from every integer. *)
Definition json_eq_int (j : json) (n : Z) : bool :=
  match j with
  | JNum m => (m =? n)%Z
  | JBool b => ((if b then 1 else 0) =? n)%Z
  | _ => false
  end.


(** [pat in s] on strings. *)
Fixpoint is_infix (pat s : string) : bool :=
  String.prefix pat s ||
  match s with
  | EmptyString => false
  | String _ s' => is_infix pat s'
  end.

(** ** The events component

    The component sources ([components/events/events_component.py] and
    [cern_events_component.py]) are exercised by the test suites only; the
    operations below follow section 4 of the specification.  What the
    specification leaves open is taken as a parameter: the query that asks
    the provider for the events carrying a zoom id, and how the zoom id is
    read off the update parameters.  So are the two body builders the
    component applies: the suite of the plain component passes parameters
    with an indico_event_id, as [event_generator.py] indexes them, the
    suite of the CERN component passes parameters with a zoom_id and no
    indico_event_id, a subject among them, and both expect the reply of
    the provider. *)

(** Modelled from the spec: the provider event id is a string. *)
Definition json_string (j : json) : result string :=
  match j with
  | JStr s => Ok s
  | _ => Raise TypeError
  end.

(** Modelled from the spec: the path of a user's events collection. *)
Definition events_path (user_id : string) : string :=
  "/users/" ++ user_id ++ "/calendar/events".

(** Modelled from the spec: the path of one event. *)
Definition event_path (user_id event_id : string) : string :=
  events_path user_id ++ "/" ++ event_id.

(** Modelled from the spec: the extended-property naming pattern; an entry
    carries the zoom id when its [id] contains "Name ZoomId". *)
Definition is_zoom_id_property (id : json) : bool :=
  match id with
  | JStr s => is_infix "Name ZoomId" s
  | _ => false
  end.

(** Modelled from the spec: the scan of [singleValueExtendedProperties] in
    sequence order for the entry whose [id] matches the pattern; a lookup
    error when the sequence is exhausted. *)
Fixpoint find_zoom_id (entries : list json) : result json :=
  match entries with
  | [] => Raise IndexError
  | entry :: rest =>
      id ← json_getitem entry "id";
      if is_zoom_id_property id then json_getitem entry "value"
      else find_zoom_id rest
  end.

(** Modelled from the spec: the collection is an ordered sequence. *)
Definition scan_extended_properties (props : json) : result json :=
  match props with
  | JList entries => find_zoom_id entries
  | _ => Raise TypeError
  end.

Section Events.

Variable pstate : Type.
Variable provider : pstate → request → pstate * response.

Variable event_body : gmap string string → result (gmap string json).
Variable partial_event_body : gmap string string → result (gmap string json).

Variable zoom_id_query : string → gmap string string.
Variable params_zoom_id : gmap string string → result string.

Abbreviation client := (client pstate).

(** Modelled from the spec: [list_events], GET on the events collection
    with the caller's headers. *)
Definition list_events (user_id : string) (parameters : gmap string string)
    (extra_headers : gmap string string) : client json :=
  send pstate provider
    (Request GET (events_path user_id) parameters None extra_headers).

(** Modelled from the spec: [get_event], GET on the event's own path. *)
Definition get_event (user_id event_id : string)
    (extra_headers : gmap string string) : client json :=
  send pstate provider
    (Request GET (event_path user_id event_id) ∅ None extra_headers).

(** Modelled from the spec: [create_event], POST of the full body. *)
Definition create_event (user_id : string)
    (event_parameters : gmap string string)
    (extra_headers : gmap string string) : client json :=
  data ← lift (event_body event_parameters);
  send pstate provider
    (Request POST (events_path user_id) ∅ (Some data) extra_headers).

(** Modelled from the spec: [update_event], PATCH of the partial body. *)
Definition update_event (user_id event_id : string)
    (event_parameters : gmap string string)
    (extra_headers : gmap string string) : client json :=
  data ← lift (partial_event_body event_parameters);
  send pstate provider
    (Request PATCH (event_path user_id event_id) ∅ (Some data)
       extra_headers).

(** Modelled from the spec: [delete_event], DELETE with no body back. *)
Definition delete_event (user_id event_id : string)
    (extra_headers : gmap string string) : client unit :=
  _ ← send pstate provider
        (Request DELETE (event_path user_id event_id) ∅ None extra_headers);
  mret tt.

(** Modelled from the spec: [get_event_by_zoom_id], one list request;
    [NotFoundError] when its [@odata.count] is 0, otherwise the first
    element of [value]. *)
Definition get_event_by_zoom_id (user_id zoom_id : string)
    (extra_headers : gmap string string) : client json :=
  response ← list_events user_id (zoom_id_query zoom_id) extra_headers;
  count ← lift (json_getitem response "@odata.count");
  if json_eq_int count 0 then raise NotFoundError
  else
    value ← lift (json_getitem response "value");
    lift (json_first value).

(** Modelled from the spec: [update_event_by_zoom_id], resolution of the
    zoom id to the provider event id, then [update_event]. *)
Definition update_event_by_zoom_id (user_id : string)
    (event_parameters : gmap string string)
    (extra_headers : gmap string string) : client json :=
  zoom_id ← lift (params_zoom_id event_parameters);
  event ← get_event_by_zoom_id user_id zoom_id extra_headers;
  event_id ← lift (json_getitem event "id" ≫= json_string);
  update_event user_id event_id event_parameters extra_headers.

(** Modelled from the spec: [delete_event_by_zoom_id], resolution of the
    zoom id to the provider event id, then [delete_event]. *)
Definition delete_event_by_zoom_id (user_id zoom_id : string)
    (extra_headers : gmap string string) : client unit :=
  event ← get_event_by_zoom_id user_id zoom_id extra_headers;
  event_id ← lift (json_getitem event "id" ≫= json_string);
  delete_event user_id event_id extra_headers.

(** Modelled from the spec: [get_event_zoom_id], GET of the event, then
    the scan of its extended properties. *)
Definition get_event_zoom_id (user_id event_id : string)
    (extra_headers : gmap string string) : client json :=
  event ← get_event user_id event_id extra_headers;
  props ← lift (json_getitem event "singleValueExtendedProperties");
  lift (scan_extended_properties props).

End Events.

(** ** An instance of the date interface

    The calendar forms [YYYY-MM-DD] and [YYYY-MM-DDTHH:MM:SS], which
    [datetime.fromisoformat] reads and which [isoformat] prints in the
    second form.  It instantiates the codec wherever a concrete run is
    evaluated. *)

Module IsoCalendar.

Record datetime : Type := Datetime {
  year : nat; month : nat; day : nat;
  hour : nat; minute : nat; second : nat
}.

Definition digit (c : ascii) : option nat :=
  let n := nat_of_ascii c in
  if (48 <=? n)%nat && (n <=? 57)%nat then Some (n - 48)%nat else None.

Definition number (l : list ascii) : option nat :=
  foldl (λ acc c, n ← acc; d ← digit c; Some (10 * n + d)%nat) (Some 0%nat) l.

Definition is_leap (y : nat) : bool :=
  ((y mod 4 =? 0) && negb (y mod 100 =? 0) || (y mod 400 =? 0))%nat.

Definition days_in_month (y m : nat) : nat :=
  match m with
  | 2 => if is_leap y then 29 else 28
  | 4 | 6 | 9 | 11 => 30
  | _ => 31
  end%nat.

Definition sep_at (l : list ascii) (i : nat) (c : ascii) : bool :=
  bool_decide (l !! i = Some c).

Definition field (l : list ascii) (i n : nat) : option nat :=
  let f := take n (drop i l) in
  if (length f =? n)%nat then number f else None.

Definition read_date (l : list ascii) : option (nat * nat * nat) :=
  y ← field l 0 4; m ← field l 5 2; d ← field l 8 2;
  if sep_at l 4 "-" && sep_at l 7 "-"
     && (1 <=? y)%nat && (1 <=? m)%nat && (m <=? 12)%nat
     && (1 <=? d)%nat && (d <=? days_in_month y m)%nat
  then Some (y, m, d) else None.

Definition read_time (l : list ascii) : option (nat * nat * nat) :=
  h ← field l 11 2; mi ← field l 14 2; s ← field l 17 2;
  if sep_at l 10 "T" && sep_at l 13 ":" && sep_at l 16 ":"
     && (h <? 24)%nat && (mi <? 60)%nat && (s <? 60)%nat
  then Some (h, mi, s) else None.

Definition fromisoformat (s : string) : option datetime :=
  let l := String.list_ascii_of_string s in
  '(y, m, d) ← read_date l;
  if (length l =? 10)%nat then Some (Datetime y m d 0 0 0)
  else if (length l =? 19)%nat then
    '(h, mi, sec) ← read_time l;
    Some (Datetime y m d h mi sec)
  else None.

Definition digit_char (n : nat) : ascii := ascii_of_nat (48 + n mod 10).

Definition two (n : nat) : string :=
  String (digit_char (n / 10)) (String (digit_char n) "").

Definition four (n : nat) : string :=
  String (digit_char (n / 1000)) (String (digit_char (n / 100)) (two n)).

Definition isoformat (d : datetime) : string :=
  four (year d) ++ "-" ++ two (month d) ++ "-" ++ two (day d) ++ "T"
  ++ two (hour d) ++ ":" ++ two (minute d) ++ ":" ++ two (second d).

End IsoCalendar.

(** ** Run-time shape of the parameter dicts *)

(** The keys every [EventParameters] carries ([timezone] alone is
    [total=False]). *)
Definition required_fields : list string :=
  ["indico_event_id"; "zoom_url"; "subject"; "start_time"; "end_time"].

Definition is_event_parameters (p : gmap string string) : bool :=
  forallb (contains p) required_fields.

(** A [PartialEventParameters] only has to carry [indico_event_id]. *)
Definition is_partial_event_parameters (p : gmap string string) : bool :=
  contains p "indico_event_id".

(** The fields a [PartialEventParameters] may leave out and that the
    partial builder looks at. *)
Definition optional_fields : list string :=
  ["zoom_url"; "subject"; "start_time"; "end_time"].

(** The constant entries of the full body. *)
Definition fixed_fields : list string :=
  ["attendees"; "allowNewTimeProposals"; "isOnlineMeeting";
   "onlineMeetingProvider"].

Definition remove_keys (ks : list string) (m : gmap string json)
  : gmap string json :=
  foldr delete m ks.

(** The keys of the full body that are computed from a given field. *)
Definition field_keys (field : string) : gset string :=
  if decide (field = "zoom_url") then {[ "body"; "location"; "onlineMeetingUrl" ]}
  else if decide (field = "subject") then {[ "subject" ]}
  else if decide (field = "start_time") then {[ "start" ]}
  else if decide (field = "end_time") then {[ "end" ]}
  else ∅.

(** The keys owed to the fields that are present in [p]. *)
Definition present_keys (p : gmap string string) : gset string :=
  ⋃ (map (λ f, if contains p f then field_keys f else ∅) optional_fields).

Section DateValidity.

Variable datetime : Type.
Variable fromisoformat : string → option datetime.

(** A date field is acceptable when it is absent or holds a string the
    parser reads. *)
Definition iso_ok (p : gmap string string) (k : string) : bool :=
  match p !! k with
  | Some s => match fromisoformat s with Some _ => true | None => false end
  | None => true
  end.

Definition dates_ok (p : gmap string string) : bool :=
  iso_ok p "start_time" && iso_ok p "end_time".

End DateValidity.

(** ** The entries each field contributes

    The sub-objects the two builders compute from one field, and the
    outcome of each conditional block of the partial builder taken on its
    own: the entries it merges, none when the field is absent, or the
    exception it raises. *)

Definition zoom_url_entries (zoom_url : string) : gmap string json :=
  {[ "body" := JObj {[
       "contentType" := JStr "text";
       "content" := JStr ("Zoom URL: " ++ zoom_url) ]};
     "location" := JObj {[
       "displayName" := JStr zoom_url;
       "locationType" := JStr "default";
       "uniqueIdType" := JStr "private";
       "uniqueId" := JStr zoom_url ]};
     "onlineMeetingUrl" := JStr zoom_url ]}.

Definition subject_entries (indico_event_id subject : string)
  : gmap string json :=
  {[ "subject" := JStr ("[" ++ indico_event_id ++ "] " ++ subject) ]}.

Definition time_entries (key dt timezone : string) : gmap string json :=
  {[ key := JObj {[ "dateTime" := JStr dt; "timeZone" := JStr timezone ]} ]}.

Definition zoom_url_block (p : gmap string string)
  : result (gmap string json) :=
  match p !! "zoom_url" with
  | Some zoom_url => Ok (zoom_url_entries zoom_url)
  | None => Ok ∅
  end.

Definition subject_block (p : gmap string string)
  : result (gmap string json) :=
  match p !! "subject" with
  | Some subject =>
      match p !! "indico_event_id" with
      | Some id => Ok (subject_entries id subject)
      | None => Raise (KeyError "indico_event_id")
      end
  | None => Ok ∅
  end.

Section TimeBlock.

Variable datetime : Type.
Variable fromisoformat : string → option datetime.
Variable isoformat : datetime → string.

Definition time_block (field key : string) (p : gmap string string)
  : result (gmap string json) :=
  match p !! field with
  | Some t =>
      match fromisoformat t with
      | Some d =>
          Ok (time_entries key (isoformat d)
                (get_default p "timezone" "Europe/Zurich"))
      | None => Raise (ValueError t)
      end
  | None => Ok ∅
  end.

End TimeBlock.

(** ** Extended-property entries *)



(** ** Test fixtures

    The provider of the test suites: a table of registered routes, each
    answered with a fixed response (the [responses] mock), anything else
    being refused. *)

#[global] Instance verb_eq_dec : EqDecision verb.
Proof. solve_decision. Defined.

Definition route_matches (r : request) (route : verb * string * response)
  : bool :=
  bool_decide (route.1.1 = req_method r) && String.eqb route.1.2 (req_path r).

Definition responses_mock (routes : list (verb * string * response))
  : unit → request → unit * response :=
  λ _ r, (tt, match List.find (route_matches r) routes with
              | Some route => route.2
              | None => Response 404 JNull
              end).

(** [test_get_event_by_zoom_id_0] *)
Definition routes_count_0 : list (verb * string * response) :=
  [(GET, "/users/user_id/calendar/events",
    Response 200 (JObj {[ "@odata.count" := JNum 0 ]}))].

(** [test_get_event_by_zoom_id_1] *)
Definition routes_count_2 : list (verb * string * response) :=
  [(GET, "/users/user_id/calendar/events",
    Response 200 (JObj {[
      "@odata.count" := JNum 2;
      "value" := JList [JObj {[ "subject" := JStr "zoom_id_1" ]};
                        JObj {[ "subject" := JStr "zoom_id_2" ]}] ]}))].

(** [test_update_event] and [test_delete_event] *)
Definition routes_update_delete : list (verb * string * response) :=
  [(PATCH, "/users/user_id/calendar/events/event_id",
    Response 200 (JObj {[ "response" := JStr "ok" ]}));
   (DELETE, "/users/user_id/calendar/events/event_id",
    Response 204 JNull);
   (GET, "/users/user_id/calendar/events",
    Response 200 (JObj {[
      "@odata.count" := JNum 1;
      "value" := JList [JObj {[ "id" := JStr "event_id";
                                "subject" := JStr "Test Event" ]}] ]}))].

(** [test_get_event_zoom_id] *)
Definition routes_zoom_id : list (verb * string * response) :=
  [(GET, "/users/user_id/calendar/events/event_id",
    Response 200 (JObj {[
      "id" := JStr "event_id";
      "subject" := JStr "Test Event";
      "singleValueExtendedProperties" := JList [JObj {[
        "id" := JStr "String {66f5a359-4659-4830-9070-00040ec6ac6e} Name ZoomId";
        "value" := JStr "1234567890" ]}] ]}))].

Definition test_headers : gmap string string := {[ "test" := "test" ]}.

(** The parameters of [test_events_component.py]. *)
Definition test_event_parameters : gmap string string :=
  {[ "zoom_url" := "https://zoom.us/j/1234567890";
     "indico_event_id" := "1234567890";
     "subject" := "Test Event";
     "start_time" := "2021-01-01T00:00:00";
     "end_time" := "2021-01-01T01:00:00" ]}.

(** The parameters of [test_update_event], with the [indico_event_id]
    that [PartialEventParameters] requires. *)
Definition test_partial_event_parameters : gmap string string :=
  <[ "zoom_id" := "1234567890" ]> test_event_parameters.

(** An update that only renames the event. *)
Definition test_subject_only : gmap string string :=
  {[ "indico_event_id" := "1234567890"; "subject" := "" ]}.

(** An update whose start_time names a thirteenth month. *)
Definition test_malformed_start : gmap string string :=
  {[ "indico_event_id" := "1234567890"; "start_time" := "2021-13-01" ]}.

(** An update that names no field to change. *)
Definition test_timezone_only : gmap string string :=
  {[ "indico_event_id" := "1234567890"; "timezone" := "Europe/Paris" ]}.

(** A query asking for the events of one zoom id, with their count. *)
Definition fixture_zoom_id_query (zoom_id : string) : gmap string string :=
  {[ "$count" := "true"; "$filter" := "zoom_id eq " ++ zoom_id ]}.

(** The zoom id travels in the parameters under [zoom_id]. *)
Definition fixture_params_zoom_id (p : gmap string string) : result string :=
  getitem p "zoom_id".

Definition fresh_world : world unit := World tt [].

(** The parameters of [test_update_event] as the test writes them. *)
Definition test_update_event_parameters : gmap string string :=
  {[ "zoom_url" := "https://zoom.us/j/1234567890";
     "zoom_id" := "1234567890";
     "subject" := "Test Event";
     "start_time" := "2021-01-01T00:00:00";
     "end_time" := "2021-01-01T01:00:00" ]}.


(** Parameters keyed by zoom_id read as parameters of the codec: the zoom
    id tags the event where no indico_event_id is given. *)
Definition zoom_id_as_tag (p : gmap string string) : gmap string string :=
  match p !! "indico_event_id", p !! "zoom_id" with
  | None, Some zoom_id => <[ "indico_event_id" := zoom_id ]> p
  | _, _ => p
  end.

(** A partial builder that serves both test suites: the codec of
    [event_generator.py] behind [zoom_id_as_tag]. *)
Definition fixture_partial_event_body (p : gmap string string)
  : result (gmap string json) :=
  create_partial_event_body _ IsoCalendar.fromisoformat IsoCalendar.isoformat
    (zoom_id_as_tag p).

(** A provider that answers no route. *)
Definition routes_none : list (verb * string * response) := [].

(** ** The request log of a resolve-then-act call *)



(** ** What the builders read and write *)

(** The keys the two builders look up in the parameters. *)
Definition codec_fields : list string :=
  ["indico_event_id"; "zoom_url"; "subject"; "start_time"; "end_time";
   "timezone"].

(** The keys of the dict [create_event_body] returns. *)
Definition full_keys : gset string :=
  {[ "subject"; "body"; "start"; "end"; "location"; "attendees";
     "allowNewTimeProposals"; "isOnlineMeeting"; "onlineMeetingProvider";
     "onlineMeetingUrl" ]}.

(** The first key of [ks], in order, that [p] does not carry. *)
Definition first_missing (ks : list string) (p : gmap string string)
  : option string :=
  List.find (λ k, negb (contains p k)) ks.

(** A patch that only moves the meeting to the url it already has. *)
Definition test_zoom_only : gmap string string :=
  {[ "indico_event_id" := "1234567890";
     "zoom_url" := "https://zoom.us/j/1234567890" ]}.

(** Complete parameters but for a start_time in a thirteenth month and
    no end_time. *)
Definition test_malformed_start_no_end : gmap string string :=
  <[ "start_time" := "2021-13-01" ]> (delete "end_time" test_event_parameters).

(** A patch with a subject but no indico_event_id, and a malformed
    start_time. *)
Definition test_subject_without_id : gmap string string :=
  {[ "subject" := "Test Event"; "start_time" := "2021-13-01" ]}.

(** The parameters of the test suite with midnight written as a date. *)
Definition test_date_only_start : gmap string string :=
  <[ "start_time" := "2021-01-01" ]> test_event_parameters.

(** * Properties of the codec *)

Lemma contains_true (p : gmap string string) k :
  contains p k = true → ∃ v, p !! k = Some v.
Proof. unfold contains. destruct (p !! k); [eauto | discriminate]. Qed.

Lemma contains_lookup (p : gmap string string) k v :
  p !! k = Some v → contains p k = true.
Proof. unfold contains. by intros ->. Qed.

Lemma contains_none (p : gmap string string) k :
  p !! k = None → contains p k = false.
Proof. unfold contains. by intros ->. Qed.

Lemma is_event_parameters_fields p :
  is_event_parameters p = true →
  ∃ id zoom subj st et,
    p !! "indico_event_id" = Some id ∧ p !! "zoom_url" = Some zoom ∧
    p !! "subject" = Some subj ∧ p !! "start_time" = Some st ∧
    p !! "end_time" = Some et.
Proof.
  unfold is_event_parameters, required_fields; simpl.
  rewrite !andb_true_iff.
  intros (H1 & H2 & H3 & H4 & H5 & _).
  apply contains_true in H1 as [id ?], H2 as [zoom ?], H3 as [subj ?],
    H4 as [st ?], H5 as [et ?].
  by exists id, zoom, subj, st, et.
Qed.

Lemma bind_ok_inv {A B} (r : result A) (k : A → result B) b :
  r ≫= k = Ok b → ∃ a, r = Ok a ∧ k a = Ok b.
Proof. destruct r as [a|e]; [eauto | discriminate]. Qed.

Lemma field_keys_zoom_url :
  field_keys "zoom_url" = {[ "body"; "location"; "onlineMeetingUrl" ]}.
Proof. reflexivity. Qed.
Lemma field_keys_subject : field_keys "subject" = {[ "subject" ]}.
Proof. reflexivity. Qed.
Lemma field_keys_start_time : field_keys "start_time" = {[ "start" ]}.
Proof. reflexivity. Qed.
Lemma field_keys_end_time : field_keys "end_time" = {[ "end" ]}.
Proof. reflexivity. Qed.

Lemma present_keys_unfold p :
  present_keys p =
    (if contains p "zoom_url" then {[ "body"; "location"; "onlineMeetingUrl" ]}
     else ∅) ∪
    ((if contains p "subject" then {[ "subject" ]} else ∅) ∪
     ((if contains p "start_time" then {[ "start" ]} else ∅) ∪
      ((if contains p "end_time" then {[ "end" ]} else ∅) ∪ ∅))).
Proof. reflexivity. Qed.

(** The blocks taken one at a time. *)

Lemma zoom_url_block_dom p z :
  zoom_url_block p = Ok z →
  dom z = if contains p "zoom_url" then field_keys "zoom_url" else ∅.
Proof.
  unfold zoom_url_block, contains.
  destruct (p !! "zoom_url"); intros [= <-].
  - rewrite field_keys_zoom_url. unfold zoom_url_entries.
    rewrite !dom_insert_L, dom_singleton_L. set_solver.
  - apply dom_empty_L.
Qed.

Lemma subject_block_dom p s :
  subject_block p = Ok s →
  dom s = if contains p "subject" then field_keys "subject" else ∅.
Proof.
  unfold subject_block, contains.
  destruct (p !! "subject"); [destruct (p !! "indico_event_id") |];
    intros [= <-].
  - rewrite field_keys_subject. unfold subject_entries.
    by rewrite dom_singleton_L.
  - apply dom_empty_L.
Qed.

Section CodecFacts.

Variable datetime : Type.
Variable fromisoformat : string → option datetime.
Variable isoformat : datetime → string.

#[local] Abbreviation full :=
  (create_event_body datetime fromisoformat isoformat).
#[local] Abbreviation partial :=
  (create_partial_event_body datetime fromisoformat isoformat).
#[local] Abbreviation valid := (dates_ok datetime fromisoformat).
#[local] Abbreviation block := (time_block datetime fromisoformat isoformat).

Lemma time_block_dom field key p a :
  block field key p = Ok a →
  dom a = if contains p field then {[ key ]} else ∅.
Proof.
  unfold time_block, contains.
  destruct (p !! field) as [t|]; [destruct (fromisoformat t) |];
    intros [= <-].
  - unfold time_entries. by rewrite dom_singleton_L.
  - apply dom_empty_L.
Qed.

(** Expose every dictionary access of the two builders. *)
Ltac expose :=
  unfold create_event_body, create_partial_event_body, dates_ok, iso_ok,
    zoom_url_block, subject_block, time_block,
    is_partial_event_parameters,
    contains, getitem, get_default, canonical_iso,
    mbind, result_bind, mret, result_ret.

(** The partial builder runs its four blocks in turn and merges what each
    of them yields, later blocks over earlier ones. *)
Lemma partial_blocks p :
  partial p =
    z ← zoom_url_block p;
    s ← subject_block p;
    a ← block "start_time" "start" p;
    b ← block "end_time" "end" p;
    mret (b ∪ (a ∪ (s ∪ z))).
Proof.
  expose. unfold update.
  destruct (p !! "zoom_url") as [zoom|]; cbv beta iota;
    fold (zoom_url_entries zoom) || idtac;
  (destruct (p !! "subject") as [subj|]; cbv beta iota;
    [destruct (p !! "indico_event_id") as [id|]; cbv beta iota;
       [fold (subject_entries id subj) | reflexivity] |]);
  (destruct (p !! "start_time") as [st|]; cbv beta iota;
    [destruct (fromisoformat st); cbv beta iota; [| reflexivity] |]);
  (destruct (p !! "end_time") as [et|]; cbv beta iota;
    [destruct (fromisoformat et); cbv beta iota; [| reflexivity] |]);
  f_equal; unfold time_entries;
  rewrite ?(left_id_L ∅ (∪)), ?(right_id_L ∅ (∪)); reflexivity.
Qed.

Lemma partial_ok_inv p body :
  partial p = Ok body →
  ∃ z s a b,
    zoom_url_block p = Ok z ∧ subject_block p = Ok s ∧
    block "start_time" "start" p = Ok a ∧ block "end_time" "end" p = Ok b ∧
    body = b ∪ (a ∪ (s ∪ z)).
Proof.
  rewrite partial_blocks.
  intros (z & Hz & (s & Hs & (a & Ha & (b & Hb & [= <-])%bind_ok_inv)
    %bind_ok_inv)%bind_ok_inv)%bind_ok_inv.
  by exists z, s, a, b.
Qed.

Lemma partial_dom p body :
  partial p = Ok body → dom body = present_keys p.
Proof.
  intros (z & s & a & b & Hz & Hs & Ha & Hb & ->)%partial_ok_inv.
  rewrite !dom_union_L, present_keys_unfold.
  rewrite (zoom_url_block_dom _ _ Hz), (subject_block_dom _ _ Hs),
    (time_block_dom _ _ _ _ Ha), (time_block_dom _ _ _ _ Hb).
  rewrite field_keys_zoom_url, field_keys_subject.
  set_solver.
Qed.

Lemma partial_total p :
  is_partial_event_parameters p = true → valid p = true →
  ∃ body, partial p = Ok body.
Proof.
  rewrite partial_blocks. expose.
  destruct (p !! "indico_event_id"); [| discriminate]. intros _.
  destruct (p !! "zoom_url"), (p !! "subject"); cbv beta iota;
  (destruct (p !! "start_time") as [st|]; cbv beta iota;
    [destruct (fromisoformat st); cbv beta iota; [| discriminate] |]);
  (destruct (p !! "end_time") as [et|]; cbv beta iota;
    [destruct (fromisoformat et); cbv beta iota; [| discriminate] |]);
  eauto.
Qed.

(** C2: on parameters that carry every field, the partial body is the
    full body with the four constant entries (attendees,
    allowNewTimeProposals, isOnlineMeeting, onlineMeetingProvider)
    removed; when a date does not parse, both builders raise the same
    error. *)
Theorem partial_body_is_full_body_minus_fixed p :
  is_event_parameters p = true →
  partial p = remove_keys fixed_fields <$> full p.
Proof.
  intros (id & zoom & subj & st & et & Hid & Hz & Hs & Hst & Het)
    %is_event_parameters_fields.
  expose. rewrite Hid, Hz, Hs, Hst, Het. cbv beta iota.
  destruct (fromisoformat st); cbv beta iota; [| reflexivity].
  destruct (fromisoformat et); cbv beta iota; reflexivity.
Qed.

(** C3: for parameters whose present dates parse, the partial builder
    returns a body whose keys are exactly the keys owed to the fields
    that are present: an absent field brings none of its keys, a present
    field brings all of them, and a field present with the empty string
    as its value brings them too (presence is key membership). *)
Theorem partial_body_keys p :
  is_partial_event_parameters p = true →
  valid p = true →
  ∃ body, partial p = Ok body
    ∧ dom body = present_keys p
    ∧ (∀ f v, f ∈ optional_fields → p !! f = Some v →
         field_keys f ⊆ dom body)
    ∧ (∀ f, f ∈ optional_fields → p !! f = Some "" →
         field_keys f ⊆ dom body)
    ∧ (∀ f, f ∈ optional_fields → p !! f = None →
         field_keys f ∩ dom body = ∅).
Proof.
  intros Hid Hv.
  destruct (partial_total p Hid Hv) as [body Hb].
  pose proof (partial_dom p body Hb) as Hdom.
  assert (∀ f v, f ∈ optional_fields → p !! f = Some v →
            field_keys f ⊆ dom body) as Hpresent.
  { intros f v Hf Hv'. rewrite Hdom, present_keys_unfold.
    apply contains_lookup in Hv'. unfold optional_fields in Hf.
    repeat (apply elem_of_cons in Hf as [-> | Hf]);
      [ .. | by apply elem_of_nil in Hf ];
      rewrite Hv'; repeat (destruct (contains p _));
      apply (bool_decide_unpack _); by vm_compute. }
  exists body. split; [done|]. split; [done|]. split; [done|]. split; [by eauto|].
  intros f Hf Hnone. rewrite Hdom, present_keys_unfold.
  apply contains_none in Hnone. unfold optional_fields in Hf.
  repeat (apply elem_of_cons in Hf as [-> | Hf]);
    [ .. | by apply elem_of_nil in Hf ];
    rewrite Hnone;
    repeat (destruct (contains p _)); by vm_compute.
Qed.

(** C4: on well-formed parameters, each builder raises the date-parsing
    error exactly when a date it has to read does not parse, and it then
    returns no body; the error carries the offending string.  When every
    date that is present parses, a body is returned. *)
Theorem malformed_date_raises :
  (∀ p, is_event_parameters p = true →
     (valid p = true → ∃ body, full p = Ok body)
     ∧ (valid p = false →
        ∃ s, full p = Raise (ValueError s) ∧ fromisoformat s = None
             ∧ (p !! "start_time" = Some s ∨ p !! "end_time" = Some s)))
  ∧ (∀ p, is_partial_event_parameters p = true →
     (valid p = true → ∃ body, partial p = Ok body)
     ∧ (valid p = false →
        ∃ s, partial p = Raise (ValueError s) ∧ fromisoformat s = None
             ∧ (p !! "start_time" = Some s ∨ p !! "end_time" = Some s))).
Proof.
  split; intros p Hp.
  - apply is_event_parameters_fields in Hp
      as (id & zoom & subj & st & et & Hid & Hz & Hs & Hst & Het).
    expose. rewrite Hid, Hz, Hs, Hst, Het. cbv beta iota.
    destruct (fromisoformat st) eqn:Est; cbv beta iota;
      [destruct (fromisoformat et) eqn:Eet; cbv beta iota |];
      split; intros [=]; eauto 6.
  - rewrite partial_blocks. revert Hp. expose.
    destruct (p !! "indico_event_id"); [intros _ | discriminate].
    destruct (p !! "zoom_url"), (p !! "subject"); cbv beta iota;
    (destruct (p !! "start_time") as [st|]; cbv beta iota;
      [destruct (fromisoformat st) eqn:Est; cbv beta iota |]);
    (destruct (p !! "end_time") as [et|]; cbv beta iota;
      [destruct (fromisoformat et) eqn:Eet; cbv beta iota |]);
    split; intros [=]; eauto 6.
Qed.

(** C5: on valid parameters the full body is returned; its [start] (and
    likewise [end]) holds as [dateTime] the input date parsed and printed
    back, and as [timeZone] the [timezone] of the parameters when the key
    is present and "Europe/Zurich" when it is absent. *)
Theorem full_body_start_end p st et d1 d2 :
  is_event_parameters p = true →
  p !! "start_time" = Some st → fromisoformat st = Some d1 →
  p !! "end_time" = Some et → fromisoformat et = Some d2 →
  ∃ body, full p = Ok body
    ∧ body !! "start" = Some (JObj {[
        "dateTime" := JStr (isoformat d1);
        "timeZone" := JStr (default "Europe/Zurich" (p !! "timezone")) ]})
    ∧ body !! "end" = Some (JObj {[
        "dateTime" := JStr (isoformat d2);
        "timeZone" := JStr (default "Europe/Zurich" (p !! "timezone")) ]}).
Proof.
  intros (id & zoom & subj & st' & et' & Hid & Hz & Hs & Hst & Het)
    %is_event_parameters_fields.
  rewrite Hst, Het. intros [= <-] Hd1 [= <-] Hd2.
  expose. rewrite Hid, Hz, Hs, Hst, Het. cbv beta iota.
  rewrite Hd1, Hd2. cbv beta iota.
  destruct (p !! "timezone"); (eexists; split; [reflexivity |]);
    split; reflexivity.
Qed.

(** C6: the full body of valid parameters has "[id] subject" under
    [subject], the empty list under [attendees], false under
    [allowNewTimeProposals], true under [isOnlineMeeting], "unknown"
    under [onlineMeetingProvider] and the zoom url under
    [onlineMeetingUrl]; the partial body has the same formatted
    [subject] whenever the subject is present. *)
Theorem subject_and_fixed_fields :
  (∀ p id subj zoom,
     is_event_parameters p = true → valid p = true →
     p !! "indico_event_id" = Some id → p !! "subject" = Some subj →
     p !! "zoom_url" = Some zoom →
     ∃ body, full p = Ok body
       ∧ body !! "subject" = Some (JStr ("[" ++ id ++ "] " ++ subj))
       ∧ body !! "attendees" = Some (JList [])
       ∧ body !! "allowNewTimeProposals" = Some (JBool false)
       ∧ body !! "isOnlineMeeting" = Some (JBool true)
       ∧ body !! "onlineMeetingProvider" = Some (JStr "unknown")
       ∧ body !! "onlineMeetingUrl" = Some (JStr zoom))
  ∧ (∀ p id subj,
     valid p = true →
     p !! "indico_event_id" = Some id → p !! "subject" = Some subj →
     ∃ body, partial p = Ok body
       ∧ body !! "subject" = Some (JStr ("[" ++ id ++ "] " ++ subj))).
Proof.
  split.
  - intros p id subj zoom
      (id' & zoom' & subj' & st & et & Hid & Hz & Hs & Hst & Het)
      %is_event_parameters_fields.
    rewrite Hid, Hs, Hz. intros Hv [= <-] [= <-] [= <-]. revert Hv.
    expose. rewrite Hid, Hz, Hs, Hst, Het. cbv beta iota.
    destruct (fromisoformat st); [| discriminate].
    destruct (fromisoformat et); [| discriminate]. intros _.
    cbv beta iota. eexists; split; [reflexivity |].
    repeat split; reflexivity.
  - intros p id subj Hv Hid Hs.
    destruct (partial_total p) as [body Hb];
      [by apply (contains_lookup _ _ id) | done |].
    exists body. split; [done |].
    apply partial_ok_inv in Hb as (z & s & a & b & _ & Hsb & Ha & Hb & ->).
    assert ("subject" ∉ dom b) as Hnb%not_elem_of_dom.
    { rewrite (time_block_dom _ _ _ _ Hb). destruct (contains p _); set_solver. }
    assert ("subject" ∉ dom a) as Hna%not_elem_of_dom.
    { rewrite (time_block_dom _ _ _ _ Ha). destruct (contains p _); set_solver. }
    revert Hsb. unfold subject_block. rewrite Hid, Hs. intros [= <-].
    rewrite !lookup_union, Hnb, Hna. unfold subject_entries.
    rewrite lookup_singleton_eq. by destruct (z !! "subject").
Qed.

Lemma zoom_url_block_insert p k v :
  k ≠ "zoom_url" → zoom_url_block (<[k:=v]> p) = zoom_url_block p.
Proof. intros. unfold zoom_url_block. by rewrite lookup_insert_ne. Qed.

Lemma subject_block_timezone p tz :
  subject_block (<["timezone":=tz]> p) = subject_block p.
Proof. unfold subject_block. by rewrite !lookup_insert_ne. Qed.

Lemma time_block_absent field key p :
  p !! field = None → block field key p = Ok ∅.
Proof. unfold time_block. by intros ->. Qed.

Lemma time_block_absent_timezone field key p tz :
  field ≠ "timezone" → p !! field = None →
  block field key (<["timezone":=tz]> p) = Ok ∅.
Proof.
  intros Hf Hnone. unfold time_block. rewrite lookup_insert_ne by done.
  by rewrite Hnone.
Qed.

(** Off its own key, what a time block yields does not depend on the
    timezone; nor does the exception it raises. *)
Lemma time_block_timezone field key p tz k :
  field ≠ "timezone" → k ≠ key →
  (λ m : gmap string json, m !! k) <$> block field key (<["timezone":=tz]> p)
  = (λ m : gmap string json, m !! k) <$> block field key p.
Proof.
  intros Hf Hk. unfold time_block.
  rewrite lookup_insert_ne by done.
  destruct (p !! field) as [t|]; [destruct (fromisoformat t) |]; try done.
  unfold time_entries. simpl. by rewrite !lookup_singleton_ne.
Qed.

(** C9: when none of zoom_url, subject, start_time and end_time is
    present, the partial body is the empty mapping whatever else the
    parameters hold; indico_event_id and timezone are never keys of a
    partial body; without a start_time and an end_time the timezone does
    not change the result at all, and in general it changes nothing
    outside the [start] and [end] entries. *)
Theorem partial_body_empty_without_optional_fields :
  (∀ p, p !! "zoom_url" = None → p !! "subject" = None →
        p !! "start_time" = None → p !! "end_time" = None →
        partial p = Ok ∅)
  ∧ (∀ p body, partial p = Ok body →
        body !! "indico_event_id" = None ∧ body !! "timezone" = None)
  ∧ (∀ p tz, p !! "start_time" = None → p !! "end_time" = None →
        partial (<["timezone":=tz]> p) = partial p)
  ∧ (∀ p tz k, k ≠ "start" → k ≠ "end" →
        (λ body : gmap string json, body !! k)
          <$> partial (<["timezone":=tz]> p)
        = (λ body : gmap string json, body !! k) <$> partial p).
Proof.
  split; [| split; [| split]].
  - intros p Hz Hs Hst Het. expose. by rewrite Hz, Hs, Hst, Het.
  - intros p body Hdom%partial_dom.
    rewrite <- !not_elem_of_dom, Hdom, present_keys_unfold.
    split; repeat (destruct (contains p _));
      apply (bool_decide_unpack _); by vm_compute.
  - intros p tz Hst Het. rewrite !partial_blocks.
    rewrite zoom_url_block_insert, subject_block_timezone by done.
    by rewrite !time_block_absent_timezone, !time_block_absent.
  - intros p tz k Hk1 Hk2. rewrite !partial_blocks.
    rewrite zoom_url_block_insert, subject_block_timezone by done.
    destruct (zoom_url_block p) as [z|]; [| done].
    destruct (subject_block p) as [s|]; [| done]. cbn.
    pose proof (time_block_timezone "start_time" "start" p tz k) as Ha.
    pose proof (time_block_timezone "end_time" "end" p tz k) as Hb.
    destruct (block "start_time" "start" (<["timezone":=tz]> p)) as [a'|],
      (block "start_time" "start" p) as [a|];
      specialize (Ha ltac:(done) ltac:(done)); simplify_eq/=; [| done].
    destruct (block "end_time" "end" (<["timezone":=tz]> p)) as [b'|],
      (block "end_time" "end" p) as [b|];
      specialize (Hb ltac:(done) ltac:(done)); simplify_eq/=; [| done].
    f_equal. rewrite !lookup_union. by rewrite Ha, Hb.
Qed.

(** C10: the keys of a partial body are among subject, body, start, end,
    location and onlineMeetingUrl; none of attendees,
    allowNewTimeProposals, isOnlineMeeting and onlineMeetingProvider is
    ever one of them. *)
Theorem partial_body_never_touches_fixed_fields p body :
  partial p = Ok body →
  dom body ⊆ {[ "subject"; "body"; "start"; "end"; "location";
                "onlineMeetingUrl" ]}
  ∧ Forall (λ k, body !! k = None) fixed_fields.
Proof.
  intros Hdom%partial_dom.
  rewrite Forall_forall. setoid_rewrite <- not_elem_of_dom.
  rewrite Hdom, present_keys_unfold. unfold fixed_fields.
  split; [| intros k Hk;
            repeat (apply elem_of_cons in Hk as [-> | Hk]);
            [ .. | by apply elem_of_nil in Hk ] ];
    repeat (destruct (contains p _));
    apply (bool_decide_unpack _); by vm_compute.
Qed.

End CodecFacts.

(** * Properties of the events component *)



Lemma json_getitem_not_found j k : json_getitem j k ≠ Raise NotFoundError.
Proof. destruct j as [| | | | | m]; try done. cbn. by destruct (m !! k). Qed.

Lemma json_first_not_found j : json_first j ≠ Raise NotFoundError.
Proof. by destruct j as [| | | | [|] |]. Qed.

Section EventsFacts.

Variable pstate : Type.
Variable provider : pstate → request → pstate * response.
Variable partial_event_body : gmap string string → result (gmap string json).
Variable zoom_id_query : string → gmap string string.
Variable params_zoom_id : gmap string string → result string.

#[local] Abbreviation by_zoom_id :=
  (get_event_by_zoom_id pstate provider zoom_id_query).
#[local] Abbreviation update_by_zoom_id :=
  (update_event_by_zoom_id pstate provider partial_event_body
     zoom_id_query params_zoom_id).
#[local] Abbreviation delete_by_zoom_id :=
  (delete_event_by_zoom_id pstate provider zoom_id_query).
#[local] Abbreviation zoom_id_of := (get_event_zoom_id pstate provider).

(** Unfold the client monad down to the provider calls. *)
Ltac run :=
  unfold update_event_by_zoom_id, delete_event_by_zoom_id, get_event_zoom_id,
    get_event_by_zoom_id, update_event, delete_event, get_event, list_events,
    send, lift, raise;
  unfold mbind, client_bind, cbind, mret, client_ret, cret;
  cbn [provider_state sent].

(** The resolution step, in terms of the provider's answer to the list
    request. *)
Lemma by_zoom_id_run w user_id zoom_id hdrs :
  let req := Request GET (events_path user_id) (zoom_id_query zoom_id) None
               hdrs in
  let out := provider (provider_state w) req in
  by_zoom_id user_id zoom_id hdrs w =
    (if is_success (status_code out.2) then
       count ← json_getitem (resp_json out.2) "@odata.count";
       if json_eq_int count 0 then Raise NotFoundError
       else json_getitem (resp_json out.2) "value" ≫= json_first
     else Raise (TransportError (status_code out.2)),
     World out.1 (sent w ++ [req])).
Proof.
  run. destruct (provider _ _) as [s resp]. cbn.
  destruct (is_success _); [| done].
  destruct (json_getitem _ "@odata.count") as [count|]; [| done]. cbn.
  destruct (json_eq_int count 0); [done |].
  destruct (json_getitem _ "value"); reflexivity.
Qed.

(** C1: [get_event_by_zoom_id] raises [NotFoundError] exactly when the
    list response carries an [@odata.count] equal to 0; when the count
    differs from 0 it returns the first element of [value], whatever the
    elements after it. *)
Theorem get_event_by_zoom_id_first_match w user_id zoom_id hdrs :
  let req := Request GET (events_path user_id) (zoom_id_query zoom_id) None
               hdrs in
  let resp := (provider (provider_state w) req).2 in
  let r := (by_zoom_id user_id zoom_id hdrs w).1 in
  (r = Raise NotFoundError ↔
     is_success (status_code resp) = true ∧
     ∃ count, json_getitem (resp_json resp) "@odata.count" = Ok count
              ∧ json_eq_int count 0 = true)
  ∧ (∀ count first rest,
       is_success (status_code resp) = true →
       json_getitem (resp_json resp) "@odata.count" = Ok count →
       json_eq_int count 0 = false →
       json_getitem (resp_json resp) "value" = Ok (JList (first :: rest)) →
       r = Ok first).
Proof.
  cbv zeta. rewrite by_zoom_id_run. cbv zeta. cbn [fst].
  destruct (provider _ _) as [s resp]. cbn [snd].
  split.
  - destruct (is_success _); cbn; [| split; [intros [=] | by intros [? _]]].
    destruct (json_getitem _ "@odata.count") as [count|e] eqn:Hcount; cbn;
      [| split; [intros [= ->]; by apply json_getitem_not_found in Hcount
                | by intros (_ & ? & ? & _)]].
    destruct (json_eq_int count 0) eqn:Hc; cbn.
    + split; [eauto | done].
    + split; [| intros (_ & ? & [= <-] & ?); congruence].
      destruct (json_getitem _ "value") as [value|e] eqn:Hvalue; cbn.
      * intros []%json_first_not_found.
      * intros [= ->]. by apply json_getitem_not_found in Hvalue.
  - intros count first rest -> -> Hc ->. cbn. by rewrite Hc.
Qed.








End EventsFacts.

(** * The builders and the component on the test suites' data *)

Section Runs.

#[local] Abbreviation full :=
  (create_event_body _ IsoCalendar.fromisoformat IsoCalendar.isoformat).
#[local] Abbreviation partial :=
  (create_partial_event_body _ IsoCalendar.fromisoformat IsoCalendar.isoformat).
#[local] Abbreviation valid := (dates_ok _ IsoCalendar.fromisoformat).

Example fromisoformat_date_only :
  canonical_iso _ IsoCalendar.fromisoformat IsoCalendar.isoformat "2021-01-01"
  = Ok "2021-01-01T00:00:00".
Proof. reflexivity. Qed.

Example fromisoformat_canonical :
  canonical_iso _ IsoCalendar.fromisoformat IsoCalendar.isoformat
    "2021-01-01T01:00:00"
  = Ok "2021-01-01T01:00:00".
Proof. reflexivity. Qed.

Example fromisoformat_malformed :
  canonical_iso _ IsoCalendar.fromisoformat IsoCalendar.isoformat "2021-13-01"
  = Raise (ValueError "2021-13-01").
Proof. reflexivity. Qed.

Example fromisoformat_empty :
  canonical_iso _ IsoCalendar.fromisoformat IsoCalendar.isoformat ""
  = Raise (ValueError "").
Proof. reflexivity. Qed.

Example full_body_of_test_parameters :
  full test_event_parameters = Ok {[
    "subject" := JStr "[1234567890] Test Event";
    "body" := JObj {[
      "contentType" := JStr "text";
      "content" := JStr "Zoom URL: https://zoom.us/j/1234567890" ]};
    "start" := JObj {[
      "dateTime" := JStr "2021-01-01T00:00:00";
      "timeZone" := JStr "Europe/Zurich" ]};
    "end" := JObj {[
      "dateTime" := JStr "2021-01-01T01:00:00";
      "timeZone" := JStr "Europe/Zurich" ]};
    "location" := JObj {[
      "displayName" := JStr "https://zoom.us/j/1234567890";
      "locationType" := JStr "default";
      "uniqueIdType" := JStr "private";
      "uniqueId" := JStr "https://zoom.us/j/1234567890" ]};
    "attendees" := JList [];
    "allowNewTimeProposals" := JBool false;
    "isOnlineMeeting" := JBool true;
    "onlineMeetingProvider" := JStr "unknown";
    "onlineMeetingUrl" := JStr "https://zoom.us/j/1234567890" ]}.
Proof. vm_compute. reflexivity. Qed.

Example partial_body_subject_only :
  partial test_subject_only = Ok {[ "subject" := JStr "[1234567890] " ]}.
Proof. vm_compute. reflexivity. Qed.

(** An empty start_time counts as present: the block runs and the parser
    refuses the string. *)
Example partial_body_empty_start_time :
  partial (<[ "start_time" := "" ]> test_timezone_only)
  = Raise (ValueError "").
Proof. vm_compute. reflexivity. Qed.

(** A subject without the required indico_event_id. *)
Example partial_body_missing_id :
  partial {[ "subject" := "Test Event" ]} = Raise (KeyError "indico_event_id").
Proof. vm_compute. reflexivity. Qed.

(** The parameters of the CERN suite's [test_update_event] carry a
    subject and no indico_event_id: the codec of [event_generator.py]
    refuses them as they are. *)
Example partial_body_of_cern_test_parameters :
  partial test_update_event_parameters = Raise (KeyError "indico_event_id").
Proof. vm_compute. reflexivity. Qed.

Example test_get_event_by_zoom_id_0 :
  get_event_by_zoom_id unit (responses_mock routes_count_0)
    fixture_zoom_id_query "user_id" "zoom_id" ∅ fresh_world
  = (Raise NotFoundError,
     World tt [Request GET "/users/user_id/calendar/events"
                 (fixture_zoom_id_query "zoom_id") None ∅]).
Proof. vm_compute. reflexivity. Qed.

Example test_get_event_by_zoom_id_1 :
  get_event_by_zoom_id unit (responses_mock routes_count_2)
    fixture_zoom_id_query "user_id" "zoom_id_1" test_headers fresh_world
  = (Ok (JObj {[ "subject" := JStr "zoom_id_1" ]}),
     World tt [Request GET "/users/user_id/calendar/events"
                 (fixture_zoom_id_query "zoom_id_1") None test_headers]).
Proof. vm_compute. reflexivity. Qed.

Example test_get_event_zoom_id :
  get_event_zoom_id unit (responses_mock routes_zoom_id)
    "user_id" "event_id" test_headers fresh_world
  = (Ok (JStr "1234567890"),
     World tt [Request GET "/users/user_id/calendar/events/event_id"
                 ∅ None test_headers]).
Proof. vm_compute. reflexivity. Qed.

Example test_delete_event :
  delete_event_by_zoom_id unit (responses_mock routes_update_delete)
    fixture_zoom_id_query "user_id" "zoom_id" test_headers fresh_world
  = (Ok tt,
     World tt [Request GET "/users/user_id/calendar/events"
                 (fixture_zoom_id_query "zoom_id") None test_headers;
               Request DELETE "/users/user_id/calendar/events/event_id"
                 ∅ None test_headers]).
Proof. vm_compute. reflexivity. Qed.

Example test_update_event :
  let out :=
    update_event_by_zoom_id unit (responses_mock routes_update_delete)
      fixture_partial_event_body fixture_zoom_id_query fixture_params_zoom_id
      "user_id" test_update_event_parameters test_headers fresh_world in
  out.1 = Ok (JObj {[ "response" := JStr "ok" ]})
  ∧ req_headers <$> sent out.2 = [test_headers; test_headers].
Proof. vm_compute. split; reflexivity. Qed.

Example test_delete_event_refused :
  delete_event_by_zoom_id unit (responses_mock routes_none)
    fixture_zoom_id_query "user_id" "zoom_id" test_headers fresh_world
  = (Raise (TransportError 404),
     World tt [Request GET "/users/user_id/calendar/events"
                 (fixture_zoom_id_query "zoom_id") None test_headers]).
Proof. vm_compute. reflexivity. Qed.

End Runs.

(** * Instances of the theorems on the test suites' data *)

Lemma partial_body_is_full_body_minus_fixed_witness :
  is_event_parameters test_event_parameters = true
  ∧ create_partial_event_body _ IsoCalendar.fromisoformat
      IsoCalendar.isoformat test_event_parameters
    = remove_keys fixed_fields
        <$> create_event_body _ IsoCalendar.fromisoformat
              IsoCalendar.isoformat test_event_parameters.
Proof.
  split; [reflexivity |].
  apply (partial_body_is_full_body_minus_fixed _ IsoCalendar.fromisoformat
           IsoCalendar.isoformat test_event_parameters).
  reflexivity.
Defined.

Lemma partial_body_keys_witness :
  ∃ body,
    create_partial_event_body _ IsoCalendar.fromisoformat
      IsoCalendar.isoformat test_subject_only = Ok body
    ∧ dom body = present_keys test_subject_only
    ∧ field_keys "subject" ⊆ dom body
    ∧ field_keys "zoom_url" ∩ dom body = ∅.
Proof.
  destruct (partial_body_keys _ IsoCalendar.fromisoformat
              IsoCalendar.isoformat test_subject_only)
    as (body & Hb & Hdom & _ & Hempty & Habsent);
    [reflexivity | reflexivity |].
  exists body. split; [exact Hb |]. split; [exact Hdom |]. split.
  - apply Hempty; [| reflexivity].
    apply (bool_decide_unpack _). vm_compute. reflexivity.
  - apply Habsent; [| reflexivity].
    apply (bool_decide_unpack _). vm_compute. reflexivity.
Defined.

Lemma malformed_date_raises_witness :
  (∃ body, create_event_body _ IsoCalendar.fromisoformat
             IsoCalendar.isoformat test_event_parameters = Ok body)
  ∧ (∃ s, create_partial_event_body _ IsoCalendar.fromisoformat
            IsoCalendar.isoformat test_malformed_start
          = Raise (ValueError s)
          ∧ IsoCalendar.fromisoformat s = None).
Proof.
  destruct (malformed_date_raises _ IsoCalendar.fromisoformat
              IsoCalendar.isoformat) as [Hfull Hpartial].
  split.
  - destruct (Hfull test_event_parameters eq_refl) as [Hok _].
    apply Hok. reflexivity.
  - destruct (Hpartial test_malformed_start eq_refl) as [_ Hraise].
    destruct (Hraise eq_refl) as (s & Hs & Hnone & _).
    by exists s.
Defined.

Lemma full_body_start_end_witness :
  ∃ body,
    create_event_body _ IsoCalendar.fromisoformat IsoCalendar.isoformat
      test_event_parameters = Ok body
    ∧ body !! "start" = Some (JObj {[
        "dateTime" := JStr "2021-01-01T00:00:00";
        "timeZone" := JStr "Europe/Zurich" ]})
    ∧ body !! "end" = Some (JObj {[
        "dateTime" := JStr "2021-01-01T01:00:00";
        "timeZone" := JStr "Europe/Zurich" ]}).
Proof.
  apply (full_body_start_end _ IsoCalendar.fromisoformat
           IsoCalendar.isoformat test_event_parameters
           "2021-01-01T00:00:00" "2021-01-01T01:00:00"
           (IsoCalendar.Datetime 2021 1 1 0 0 0)
           (IsoCalendar.Datetime 2021 1 1 1 0 0));
    reflexivity.
Defined.

Lemma subject_and_fixed_fields_witness :
  (∃ body,
     create_event_body _ IsoCalendar.fromisoformat IsoCalendar.isoformat
       test_event_parameters = Ok body
     ∧ body !! "subject" = Some (JStr "[1234567890] Test Event")
     ∧ body !! "attendees" = Some (JList [])
     ∧ body !! "allowNewTimeProposals" = Some (JBool false)
     ∧ body !! "isOnlineMeeting" = Some (JBool true)
     ∧ body !! "onlineMeetingProvider" = Some (JStr "unknown")
     ∧ body !! "onlineMeetingUrl"
       = Some (JStr "https://zoom.us/j/1234567890"))
  ∧ (∃ body,
       create_partial_event_body _ IsoCalendar.fromisoformat
         IsoCalendar.isoformat test_subject_only = Ok body
       ∧ body !! "subject" = Some (JStr "[1234567890] ")).
Proof.
  destruct (subject_and_fixed_fields _ IsoCalendar.fromisoformat
              IsoCalendar.isoformat) as [Hfull Hpartial].
  split.
  - apply (Hfull test_event_parameters "1234567890" "Test Event"
             "https://zoom.us/j/1234567890"); reflexivity.
  - apply (Hpartial test_subject_only "1234567890" ""); reflexivity.
Defined.

Lemma partial_body_empty_without_optional_fields_witness :
  create_partial_event_body _ IsoCalendar.fromisoformat IsoCalendar.isoformat
    test_timezone_only
  = Ok ∅
  ∧ create_partial_event_body _ IsoCalendar.fromisoformat
      IsoCalendar.isoformat
      (<[ "timezone" := "Europe/Paris" ]> test_subject_only)
    = create_partial_event_body _ IsoCalendar.fromisoformat
        IsoCalendar.isoformat test_subject_only.
Proof.
  destruct (partial_body_empty_without_optional_fields _
              IsoCalendar.fromisoformat IsoCalendar.isoformat)
    as (Hempty & _ & Htz & _).
  split.
  - apply Hempty; reflexivity.
  - apply Htz; reflexivity.
Defined.

Lemma partial_body_never_touches_fixed_fields_witness :
  ∃ body,
    create_partial_event_body _ IsoCalendar.fromisoformat
      IsoCalendar.isoformat test_event_parameters = Ok body
    ∧ dom body ⊆ {[ "subject"; "body"; "start"; "end"; "location";
                    "onlineMeetingUrl" ]}
    ∧ Forall (λ k, body !! k = None) fixed_fields.
Proof.
  eexists. split; [reflexivity |].
  apply (partial_body_never_touches_fixed_fields _ IsoCalendar.fromisoformat
           IsoCalendar.isoformat test_event_parameters).
  reflexivity.
Defined.

Lemma get_event_by_zoom_id_first_match_witness :
  (get_event_by_zoom_id unit (responses_mock routes_count_0)
     fixture_zoom_id_query "user_id" "zoom_id" test_headers fresh_world).1
  = Raise NotFoundError
  ∧ (get_event_by_zoom_id unit (responses_mock routes_count_2)
       fixture_zoom_id_query "user_id" "zoom_id_1" test_headers fresh_world).1
    = Ok (JObj {[ "subject" := JStr "zoom_id_1" ]}).
Proof.
  split.
  - apply (get_event_by_zoom_id_first_match unit
             (responses_mock routes_count_0) fixture_zoom_id_query
             fresh_world "user_id" "zoom_id" test_headers).
    split; [reflexivity |]. exists (JNum 0). split; reflexivity.
  - apply (proj2 (get_event_by_zoom_id_first_match unit
             (responses_mock routes_count_2) fixture_zoom_id_query
             fresh_world "user_id" "zoom_id_1" test_headers)
             (JNum 2) _ [JObj {[ "subject" := JStr "zoom_id_2" ]}]);
      reflexivity.
Defined.




(** * Further properties of the codec *)

Section CodecOutcomes.

Variable datetime : Type.
Variable fromisoformat : string → option datetime.
Variable isoformat : datetime → string.

#[local] Abbreviation full :=
  (create_event_body datetime fromisoformat isoformat).
#[local] Abbreviation partial :=
  (create_partial_event_body datetime fromisoformat isoformat).
#[local] Abbreviation valid := (dates_ok datetime fromisoformat).

(** Expose every dictionary access of the two builders. *)
Ltac open_codec :=
  unfold create_event_body, create_partial_event_body, dates_ok, iso_ok,
    is_event_parameters, required_fields, first_missing,
    is_partial_event_parameters,
    contains, getitem, get_default, canonical_iso,
    mbind, result_bind, mret, result_ret;
  cbn [forallb List.find].

(** X1: the full builder returns a body exactly when the parameters carry
    the five required keys and both dates parse. *)
Theorem full_body_returns_iff p :
  (∃ body, full p = Ok body)
  ↔ is_event_parameters p = true ∧ valid p = true.
Proof.
  open_codec.
  destruct (p !! "indico_event_id"), (p !! "zoom_url"), (p !! "subject");
    (destruct (p !! "start_time") as [st|];
       [destruct (fromisoformat st) |]);
    (destruct (p !! "end_time") as [et|];
       [destruct (fromisoformat et) |]);
    cbn [andb];
    (split;
      [ intros [body Hbody]; (discriminate Hbody || done)
      | intros [Hkeys Hdates]; (discriminate || eauto) ]).
Qed.

(** X2: the exception of the full builder is that of the first step that
    fails, in the order in which the dict display is evaluated: the
    lookups of indico_event_id, subject, zoom_url and start_time, the
    parsing of start_time, the lookup of end_time, the parsing of
    end_time.  So a malformed start_time is reported even when end_time
    is missing, and a missing subject even when both dates are
    malformed. *)
Theorem full_body_first_error p :
  (∀ k, first_missing ["indico_event_id"; "subject"; "zoom_url";
                       "start_time"] p = Some k →
        full p = Raise (KeyError k))
  ∧ (first_missing ["indico_event_id"; "subject"; "zoom_url"] p = None →
     ∀ st, p !! "start_time" = Some st →
       (fromisoformat st = None → full p = Raise (ValueError st))
       ∧ (is_Some (fromisoformat st) →
          (p !! "end_time" = None → full p = Raise (KeyError "end_time"))
          ∧ (∀ et, p !! "end_time" = Some et → fromisoformat et = None →
               full p = Raise (ValueError et)))).
Proof.
  open_codec. split.
  - intros k.
    destruct (p !! "indico_event_id"); cbn; [| by intros [= <-]].
    destruct (p !! "subject"); cbn; [| by intros [= <-]].
    destruct (p !! "zoom_url"); cbn; [| by intros [= <-]].
    destruct (p !! "start_time"); cbn; [done | by intros [= <-]].
  - destruct (p !! "indico_event_id"); cbn; [| done].
    destruct (p !! "subject"); cbn; [| done].
    destruct (p !! "zoom_url"); cbn; [| done].
    intros _ st ->. cbn. split.
    + by intros ->.
    + intros [d ->]. cbn. split.
      * by intros ->.
      * intros et -> ->. done.
Qed.

(** X3: the partial builder returns a body exactly when every date that
    is present parses and the subject, if present, comes with the
    indico_event_id; zoom_url, and any string as its value, never makes
    it fail. *)
Theorem partial_body_returns_iff p :
  (∃ body, partial p = Ok body)
  ↔ (contains p "subject" = true → contains p "indico_event_id" = true)
    ∧ valid p = true.
Proof.
  rewrite (partial_blocks datetime fromisoformat isoformat).
  unfold zoom_url_block, subject_block, time_block. open_codec.
  destruct (p !! "zoom_url"), (p !! "subject"), (p !! "indico_event_id");
    (destruct (p !! "start_time") as [st|];
       [destruct (fromisoformat st) |]);
    (destruct (p !! "end_time") as [et|];
       [destruct (fromisoformat et) |]);
    cbn [andb];
    (split;
      [ intros [body Hbody]; (discriminate Hbody || done)
      | intros [Hid Hdates];
        (discriminate Hdates
         || (specialize (Hid eq_refl); discriminate Hid)
         || eauto) ]).
Qed.

(** X4: the partial builder raises nothing but a [KeyError] for
    indico_event_id or a [ValueError] for a date that is present; the
    missing indico_event_id of a present subject is reported whatever the
    dates are, and a malformed start_time before a malformed end_time. *)
Theorem partial_body_first_error p :
  (∀ e, partial p = Raise e →
     e = KeyError "indico_event_id"
     ∨ ∃ s, e = ValueError s ∧ fromisoformat s = None
            ∧ (p !! "start_time" = Some s ∨ p !! "end_time" = Some s))
  ∧ (contains p "subject" = true → p !! "indico_event_id" = None →
     partial p = Raise (KeyError "indico_event_id"))
  ∧ ((contains p "subject" = true → contains p "indico_event_id" = true) →
     ∀ st, p !! "start_time" = Some st → fromisoformat st = None →
       partial p = Raise (ValueError st)).
Proof.
  rewrite (partial_blocks datetime fromisoformat isoformat).
  unfold zoom_url_block, subject_block, time_block. open_codec.
  split; [| split].
  - intros e.
    destruct (p !! "zoom_url"); cbn;
    destruct (p !! "subject"); cbn;
    destruct (p !! "indico_event_id"); cbn;
    (destruct (p !! "start_time") as [st|]; cbn;
       [destruct (fromisoformat st) eqn:Est; cbn |]);
    (destruct (p !! "end_time") as [et|]; cbn;
       [destruct (fromisoformat et) eqn:Eet; cbn |]);
    intros [= <-]; eauto 8.
  - destruct (p !! "subject"); [intros _ | done]. intros ->.
    by destruct (p !! "zoom_url").
  - intros Hid st -> ->.
    destruct (p !! "zoom_url"); cbn;
    destruct (p !! "subject"); cbn; try done;
    destruct (p !! "indico_event_id"); cbn; try done;
    by specialize (Hid eq_refl).
Qed.

(** X5: the builders read nothing but the six codec fields: parameters
    that agree on them give the same outcome, whatever other keys they
    carry. *)
Theorem builders_read_codec_fields_only p q :
  (∀ k, k ∈ codec_fields → p !! k = q !! k) →
  full p = full q ∧ partial p = partial q.
Proof.
  intros Hagree.
  assert (p !! "indico_event_id" = q !! "indico_event_id") as Hid
    by (apply Hagree; apply (bool_decide_unpack _); by vm_compute).
  assert (p !! "zoom_url" = q !! "zoom_url") as Hz
    by (apply Hagree; apply (bool_decide_unpack _); by vm_compute).
  assert (p !! "subject" = q !! "subject") as Hs
    by (apply Hagree; apply (bool_decide_unpack _); by vm_compute).
  assert (p !! "start_time" = q !! "start_time") as Hst
    by (apply Hagree; apply (bool_decide_unpack _); by vm_compute).
  assert (p !! "end_time" = q !! "end_time") as Het
    by (apply Hagree; apply (bool_decide_unpack _); by vm_compute).
  assert (p !! "timezone" = q !! "timezone") as Htz
    by (apply Hagree; apply (bool_decide_unpack _); by vm_compute).
  open_codec. by rewrite Hid, Hz, Hs, Hst, Het, Htz.
Qed.

(** X6: a body returned by the full builder has exactly the ten keys of
    the dict display, whatever the parameters. *)
Theorem full_body_keys p body :
  full p = Ok body → dom body = full_keys.
Proof.
  open_codec.
  destruct (p !! "indico_event_id"); [| done].
  destruct (p !! "subject"); [| done].
  destruct (p !! "zoom_url"); [| done].
  destruct (p !! "start_time") as [st|]; [| done].
  destruct (fromisoformat st); [| done].
  destruct (p !! "end_time") as [et|]; [| done].
  destruct (fromisoformat et); [| done].
  intros [= <-]. unfold full_keys.
  rewrite !dom_insert_L, dom_singleton_L. set_solver.
Qed.

(** X7: both builders write the zoom url in three places that always
    agree: prefixed with "Zoom URL: " as the text of [body], as
    [displayName] and [uniqueId] of a private default [location], and as
    [onlineMeetingUrl]. *)
Theorem zoom_url_entries_of_body p zoom_url body :
  p !! "zoom_url" = Some zoom_url →
  create_event_body datetime fromisoformat isoformat p = Ok body
  ∨ create_partial_event_body datetime fromisoformat isoformat p = Ok body →
  body !! "body" = Some (JObj {[
      "contentType" := JStr "text";
      "content" := JStr ("Zoom URL: " ++ zoom_url) ]})
  ∧ body !! "location" = Some (JObj {[
      "displayName" := JStr zoom_url;
      "locationType" := JStr "default";
      "uniqueIdType" := JStr "private";
      "uniqueId" := JStr zoom_url ]})
  ∧ body !! "onlineMeetingUrl" = Some (JStr zoom_url).
Proof.
  intros Hz [Hfull | Hpartial].
  - revert Hfull. open_codec. rewrite Hz.
    destruct (p !! "indico_event_id"); [| done].
    destruct (p !! "subject"); [| done]. cbv beta iota.
    destruct (p !! "start_time") as [st|]; [| done].
    destruct (fromisoformat st); [| done].
    destruct (p !! "end_time") as [et|]; [| done].
    destruct (fromisoformat et); [| done].
    intros [= <-]. repeat split; reflexivity.
  - apply (partial_ok_inv datetime fromisoformat isoformat) in Hpartial
      as (z & s & a & b & Hzb & Hs & Ha & Hb & ->).
    assert (∀ k, k ≠ "subject" → k ≠ "start" → k ≠ "end" →
              (b ∪ (a ∪ (s ∪ z))) !! k = z !! k) as Hlook.
    { intros k Hk1 Hk2 Hk3.
      assert (b !! k = None) as Hbk.
      { apply not_elem_of_dom.
        rewrite (time_block_dom _ _ _ _ _ _ _ Hb).
        destruct (contains p _); set_solver. }
      assert (a !! k = None) as Hak.
      { apply not_elem_of_dom.
        rewrite (time_block_dom _ _ _ _ _ _ _ Ha).
        destruct (contains p _); set_solver. }
      assert (s !! k = None) as Hsk.
      { apply not_elem_of_dom. rewrite (subject_block_dom _ _ Hs).
        rewrite field_keys_subject. destruct (contains p _); set_solver. }
      by rewrite !lookup_union, Hbk, Hak, Hsk, !(left_id_L None _). }
    rewrite !Hlook by done.
    revert Hzb. unfold zoom_url_block. rewrite Hz. intros [= <-].
    repeat split; reflexivity.
Qed.

(** X8: when a date is present and parses, the partial body holds under
    [start] (respectively [end]) the date parsed and printed back, with
    the timezone of the parameters, or "Europe/Zurich" when they carry
    none: a patch of a date without a timezone sets the default one. *)
Theorem partial_body_start_end p body :
  partial p = Ok body →
  (∀ st d, p !! "start_time" = Some st → fromisoformat st = Some d →
     body !! "start" = Some (JObj {[
       "dateTime" := JStr (isoformat d);
       "timeZone" := JStr (default "Europe/Zurich" (p !! "timezone")) ]}))
  ∧ (∀ et d, p !! "end_time" = Some et → fromisoformat et = Some d →
     body !! "end" = Some (JObj {[
       "dateTime" := JStr (isoformat d);
       "timeZone" := JStr (default "Europe/Zurich" (p !! "timezone")) ]})).
Proof.
  intros (z & s & a & b & Hz & Hs & Ha & Hb & ->)
    %(partial_ok_inv datetime fromisoformat isoformat).
  split.
  - intros st d Hst Hd.
    assert (b !! "start" = None) as Hbk.
    { apply not_elem_of_dom. rewrite (time_block_dom _ _ _ _ _ _ _ Hb).
      destruct (contains p _); set_solver. }
    rewrite lookup_union, Hbk, (left_id_L None _), lookup_union.
    revert Ha. unfold time_block, get_default. rewrite Hst, Hd.
    intros [= <-]. unfold time_entries. rewrite lookup_singleton_eq.
    destruct ((s ∪ z) !! "start"); by destruct (p !! "timezone").
  - intros et d Het Hd. rewrite lookup_union.
    revert Hb. unfold time_block, get_default. rewrite Het, Hd.
    intros [= <-]. unfold time_entries. rewrite lookup_singleton_eq.
    destruct ((a ∪ (s ∪ z)) !! "end"); by destruct (p !! "timezone").
Qed.

(** X11: a date enters the body through its parsed value alone: replacing
    start_time (or end_time) by another spelling of the same date changes
    the outcome of neither builder. *)
Theorem builders_ignore_date_spelling p field s s' d :
  field = "start_time" ∨ field = "end_time" →
  p !! field = Some s →
  fromisoformat s = Some d → fromisoformat s' = Some d →
  full (<[field := s']> p) = full p
  ∧ partial (<[field := s']> p) = partial p.
Proof.
  intros [-> | ->] Hs Hd Hd'; open_codec;
    rewrite lookup_insert_eq, !lookup_insert_ne, Hs by done;
    cbv beta iota; rewrite Hd, Hd'; done.
Qed.

End CodecOutcomes.

Lemma Ok_inj {A} (a b : A) : Ok a = Ok b → a = b.
Proof. by intros [=]. Qed.

Lemma Some_JObj_inj (m1 m2 : gmap string json) :
  Some (JObj m1) = Some (JObj m2) → m1 = m2.
Proof. by intros [=]. Qed.

Lemma Some_JStr_inj (s1 s2 : string) :
  Some (JStr s1) = Some (JStr s2) → s1 = s2.
Proof. by intros [=]. Qed.

Section CodecComposition.

Variable datetime : Type.
Variable fromisoformat : string → option datetime.
Variable isoformat : datetime → string.

#[local] Abbreviation full :=
  (create_event_body datetime fromisoformat isoformat).
#[local] Abbreviation partial :=
  (create_partial_event_body datetime fromisoformat isoformat).

Ltac open_builders :=
  unfold create_event_body, create_partial_event_body,
    contains, getitem, get_default, canonical_iso,
    mbind, result_bind, mret, result_ret.

(** Merging the partial body of [p] into the full body of [q] builds the
    full body of [q] overridden by [p]. *)
Lemma update_full_with_partial p q patch body :
  partial p = Ok patch → full q = Ok body →
  p !! "indico_event_id" = q !! "indico_event_id" →
  p !! "timezone" = q !! "timezone" →
  full (p ∪ q) = Ok (update body patch).
Proof.
  intros Hp Hq Hid Htz. revert Hp Hq.
  open_builders. rewrite !lookup_union, Hid, Htz.
  destruct (q !! "indico_event_id") as [id|]; [| intros _ [=]].
  destruct (q !! "subject") as [qsubj|]; [| intros _ [=]].
  destruct (q !! "zoom_url") as [qzoom|]; [| intros _ [=]].
  destruct (q !! "start_time") as [qst|]; [| intros _ [=]].
  cbv beta iota.
  destruct (fromisoformat qst) as [qd1|] eqn:Hqd1; [| intros _ [=]].
  destruct (q !! "end_time") as [qet|]; [| intros _ [=]].
  cbv beta iota.
  destruct (fromisoformat qet) as [qd2|] eqn:Hqd2; [| intros _ [=]].
  destruct (q !! "timezone") as [tz|];
  destruct (p !! "zoom_url") as [zoom|];
  destruct (p !! "subject") as [subj|];
  (destruct (p !! "start_time") as [st|];
     [destruct (fromisoformat st) as [d1|] eqn:Hd1 |]);
  (destruct (p !! "end_time") as [et|];
     [destruct (fromisoformat et) as [d2|] eqn:Hd2 |]);
  cbn [union option_union union_with option_union_with];
  cbv beta iota;
  rewrite ?Hd1, ?Hd2, ?Hqd1, ?Hqd2; cbv beta iota;
  intros Hp Hq;
  first [ discriminate Hp
        | apply Ok_inj in Hp, Hq; subst patch body; reflexivity ].
Qed.


(** X9: the two builders map each field the same way.  For parameters
    [p] that are part of complete parameters [q] naming the same
    timezone, every entry of the partial body of [p] is an entry of the
    full body of [q], and merging the patch into that body leaves it
    unchanged. *)
Theorem partial_body_within_full_body p q patch body :
  is_partial_event_parameters p = true →
  p ⊆ q → p !! "timezone" = q !! "timezone" →
  partial p = Ok patch → full q = Ok body →
  patch ⊆ body ∧ update body patch = body.
Proof.
  intros [id Hid]%contains_true Hsub Htz Hp Hq.
  assert (update body patch = body) as Hupd.
  { pose proof (update_full_with_partial p q patch body Hp Hq) as Hmerge.
    rewrite (map_subseteq_union p q Hsub), Hq in Hmerge.
    assert (p !! "indico_event_id" = q !! "indico_event_id") as Hsame.
    { rewrite Hid. symmetry. by apply (lookup_weaken p q). }
    by injection (Hmerge Hsame Htz). }
  split; [| done].
  rewrite <- Hupd. unfold update. apply map_union_subseteq_l.
Qed.

(** X10: patching composes with creating.  Merging, as [dict.update]
    does, the partial body of [p] into the full body of [q] gives the
    full body of the parameters [q] overridden by [p], provided [p] names
    the same indico_event_id and timezone as [q]. *)
Theorem patch_of_full_body p q patch body :
  partial p = Ok patch → full q = Ok body →
  p !! "indico_event_id" = q !! "indico_event_id" →
  p !! "timezone" = q !! "timezone" →
  full (p ∪ q) = Ok (update body patch).
Proof. apply update_full_with_partial. Qed.

(** X12: what was put into a full body can be read back from it: two
    parameter dicts with the same full body have the same zoom_url, the
    same effective timezone and dates that print back the same. *)
Theorem full_body_determines_fields p q body :
  full p = Ok body → full q = Ok body →
  p !! "zoom_url" = q !! "zoom_url"
  ∧ get_default p "timezone" "Europe/Zurich"
    = get_default q "timezone" "Europe/Zurich"
  ∧ (getitem p "start_time"
       ≫= canonical_iso datetime fromisoformat isoformat)
    = (getitem q "start_time"
         ≫= canonical_iso datetime fromisoformat isoformat)
  ∧ (getitem p "end_time"
       ≫= canonical_iso datetime fromisoformat isoformat)
    = (getitem q "end_time"
         ≫= canonical_iso datetime fromisoformat isoformat).
Proof.
  open_builders.
  destruct (p !! "indico_event_id"); [| done].
  destruct (p !! "subject"); [| done].
  destruct (p !! "zoom_url") as [pz|]; [| done].
  destruct (p !! "start_time") as [pst|]; [| done]. cbv beta iota.
  destruct (fromisoformat pst); [| done].
  destruct (p !! "end_time") as [pet|]; [| done]. cbv beta iota.
  destruct (fromisoformat pet); [| done].
  intros <-%Ok_inj.
  destruct (q !! "indico_event_id"); [| done].
  destruct (q !! "subject"); [| done].
  destruct (q !! "zoom_url") as [qz|]; [| done].
  destruct (q !! "start_time") as [qst|]; [| done]. cbv beta iota.
  destruct (fromisoformat qst); [| done].
  destruct (q !! "end_time") as [qet|]; [| done]. cbv beta iota.
  destruct (fromisoformat qet); [| done].
  intros Heq%Ok_inj.
  pose proof (f_equal (lookup "onlineMeetingUrl") Heq) as Hurl.
  pose proof (f_equal (lookup "start") Heq) as Hstart.
  pose proof (f_equal (lookup "end") Heq) as Hend.
  repeat (rewrite lookup_insert_ne in Hurl by done).
  repeat (rewrite lookup_insert_ne in Hstart by done).
  repeat (rewrite lookup_insert_ne in Hend by done).
  rewrite !lookup_singleton_eq in Hurl.
  rewrite !lookup_insert_eq in Hstart, Hend.
  apply Some_JStr_inj in Hurl as ->.
  apply Some_JObj_inj in Hstart, Hend.
  pose proof (f_equal (lookup "dateTime") Hstart) as Hdt1.
  pose proof (f_equal (lookup "timeZone") Hstart) as Htz.
  pose proof (f_equal (lookup "dateTime") Hend) as Hdt2.
  rewrite !lookup_insert_eq in Hdt1, Hdt2.
  repeat (rewrite lookup_insert_ne in Htz by done).
  rewrite !lookup_singleton_eq in Htz.
  apply Some_JStr_inj in Hdt1 as ->, Htz as Htz, Hdt2 as ->.
  by rewrite Htz.
Qed.

End CodecComposition.

(** * Instances of the further properties *)

Lemma full_body_returns_iff_witness :
  ∃ body, create_event_body _ IsoCalendar.fromisoformat
            IsoCalendar.isoformat test_event_parameters = Ok body.
Proof.
  apply (full_body_returns_iff _ IsoCalendar.fromisoformat
           IsoCalendar.isoformat test_event_parameters).
  split; reflexivity.
Defined.

Lemma full_body_first_error_witness :
  create_event_body _ IsoCalendar.fromisoformat IsoCalendar.isoformat
    test_malformed_start = Raise (KeyError "subject")
  ∧ create_event_body _ IsoCalendar.fromisoformat IsoCalendar.isoformat
      test_malformed_start_no_end = Raise (ValueError "2021-13-01").
Proof.
  split.
  - apply (full_body_first_error _ IsoCalendar.fromisoformat
             IsoCalendar.isoformat test_malformed_start).
    reflexivity.
  - destruct (full_body_first_error _ IsoCalendar.fromisoformat
                IsoCalendar.isoformat test_malformed_start_no_end)
      as [_ Hdates].
    destruct (Hdates eq_refl "2021-13-01" eq_refl) as [Hstart _].
    apply Hstart. reflexivity.
Defined.

Lemma partial_body_returns_iff_witness :
  ∃ body, create_partial_event_body _ IsoCalendar.fromisoformat
            IsoCalendar.isoformat test_zoom_only = Ok body.
Proof.
  apply (partial_body_returns_iff _ IsoCalendar.fromisoformat
           IsoCalendar.isoformat test_zoom_only).
  split; [discriminate | reflexivity].
Defined.

Lemma partial_body_first_error_witness :
  create_partial_event_body _ IsoCalendar.fromisoformat IsoCalendar.isoformat
    test_subject_without_id = Raise (KeyError "indico_event_id")
  ∧ create_partial_event_body _ IsoCalendar.fromisoformat
      IsoCalendar.isoformat test_malformed_start
    = Raise (ValueError "2021-13-01").
Proof.
  split.
  - destruct (partial_body_first_error _ IsoCalendar.fromisoformat
                IsoCalendar.isoformat test_subject_without_id)
      as (_ & Hkey & _).
    apply Hkey; reflexivity.
  - destruct (partial_body_first_error _ IsoCalendar.fromisoformat
                IsoCalendar.isoformat test_malformed_start)
      as (_ & _ & Hstart).
    apply Hstart; [discriminate | reflexivity | reflexivity].
Defined.

Lemma builders_read_codec_fields_only_witness :
  create_event_body _ IsoCalendar.fromisoformat IsoCalendar.isoformat
    test_partial_event_parameters
  = create_event_body _ IsoCalendar.fromisoformat IsoCalendar.isoformat
      test_event_parameters
  ∧ create_partial_event_body _ IsoCalendar.fromisoformat
      IsoCalendar.isoformat test_partial_event_parameters
    = create_partial_event_body _ IsoCalendar.fromisoformat
        IsoCalendar.isoformat test_event_parameters.
Proof.
  apply (builders_read_codec_fields_only _ IsoCalendar.fromisoformat
           IsoCalendar.isoformat).
  intros k Hk. unfold codec_fields in Hk.
  repeat (apply elem_of_cons in Hk as [-> | Hk]);
    [ reflexivity .. | by apply elem_of_nil in Hk ].
Defined.

Lemma full_body_keys_witness :
  ∃ body,
    create_event_body _ IsoCalendar.fromisoformat IsoCalendar.isoformat
      test_event_parameters = Ok body
    ∧ dom body = full_keys.
Proof.
  eexists. split; [reflexivity |].
  apply (full_body_keys _ IsoCalendar.fromisoformat IsoCalendar.isoformat
           test_event_parameters).
  reflexivity.
Defined.

Lemma zoom_url_entries_of_body_witness :
  ∃ body,
    create_partial_event_body _ IsoCalendar.fromisoformat
      IsoCalendar.isoformat test_zoom_only = Ok body
    ∧ body !! "onlineMeetingUrl"
      = Some (JStr "https://zoom.us/j/1234567890").
Proof.
  eexists. split; [reflexivity |].
  apply (zoom_url_entries_of_body _ IsoCalendar.fromisoformat
           IsoCalendar.isoformat test_zoom_only
           "https://zoom.us/j/1234567890");
    [reflexivity | right; reflexivity].
Defined.

Lemma partial_body_start_end_witness :
  ∃ body,
    create_partial_event_body _ IsoCalendar.fromisoformat
      IsoCalendar.isoformat test_date_only_start = Ok body
    ∧ body !! "start" = Some (JObj {[
        "dateTime" := JStr "2021-01-01T00:00:00";
        "timeZone" := JStr "Europe/Zurich" ]}).
Proof.
  eexists. split; [reflexivity |].
  destruct (partial_body_start_end _ IsoCalendar.fromisoformat
              IsoCalendar.isoformat test_date_only_start _ eq_refl)
    as [Hstart _].
  apply (Hstart "2021-01-01" (IsoCalendar.Datetime 2021 1 1 0 0 0));
    reflexivity.
Defined.

Lemma builders_ignore_date_spelling_witness :
  create_event_body _ IsoCalendar.fromisoformat IsoCalendar.isoformat
    (<[ "start_time" := "2021-01-01" ]> test_event_parameters)
  = create_event_body _ IsoCalendar.fromisoformat IsoCalendar.isoformat
      test_event_parameters.
Proof.
  apply (builders_ignore_date_spelling _ IsoCalendar.fromisoformat
           IsoCalendar.isoformat test_event_parameters "start_time"
           "2021-01-01T00:00:00" "2021-01-01"
           (IsoCalendar.Datetime 2021 1 1 0 0 0));
    [by left | reflexivity ..].
Defined.

Lemma partial_body_within_full_body_witness :
  ∃ patch body,
    create_partial_event_body _ IsoCalendar.fromisoformat
      IsoCalendar.isoformat test_zoom_only = Ok patch
    ∧ create_event_body _ IsoCalendar.fromisoformat IsoCalendar.isoformat
        test_event_parameters = Ok body
    ∧ patch ⊆ body ∧ update body patch = body.
Proof.
  eexists _, _. split; [reflexivity |]. split; [reflexivity |].
  apply (partial_body_within_full_body _ IsoCalendar.fromisoformat
           IsoCalendar.isoformat test_zoom_only test_event_parameters);
    [reflexivity | | reflexivity ..].
  apply (bool_decide_unpack _). vm_compute. reflexivity.
Defined.

Lemma patch_of_full_body_witness :
  ∃ patch body,
    create_partial_event_body _ IsoCalendar.fromisoformat
      IsoCalendar.isoformat test_subject_only = Ok patch
    ∧ create_event_body _ IsoCalendar.fromisoformat IsoCalendar.isoformat
        test_event_parameters = Ok body
    ∧ create_event_body _ IsoCalendar.fromisoformat IsoCalendar.isoformat
        (test_subject_only ∪ test_event_parameters)
      = Ok (update body patch).
Proof.
  eexists _, _. split; [reflexivity |]. split; [reflexivity |].
  apply (patch_of_full_body _ IsoCalendar.fromisoformat
           IsoCalendar.isoformat test_subject_only test_event_parameters);
    reflexivity.
Defined.

Lemma full_body_determines_fields_witness :
  test_date_only_start !! "zoom_url" = test_event_parameters !! "zoom_url".
Proof.
  eapply (full_body_determines_fields _ IsoCalendar.fromisoformat
            IsoCalendar.isoformat test_date_only_start
            test_event_parameters).
  - reflexivity.
  - vm_compute. reflexivity.
Defined.
